(** * PRST [prst/utils/gridtools.py]: [getNeighborship]

    A shallow embedding of the one function of the module and of the
    fragment of Python and numpy it runs on, followed by the properties of
    the neighborship relation [N] and of the flag column [isnnc]. *)

From Stdlib Require Import String ZArith List Bool Lia.
Import ListNotations.

Local Open Scope Z_scope.

(** ** Python: exceptions and attribute access *)

Module Py.

(** The exception classes the function can meet. *)
Inductive exn : Type :=
| AssertionError
| AttributeError
| IndexError
| TypeError
| ValueError
| UnboundLocalError.

(** The outcome of evaluating an expression or a call: a value, or a raised
    exception that propagates. *)
Inductive result (A : Type) : Type :=
| Ok (a : A)
| Raise (e : exn).

Arguments Ok {A} a.
Arguments Raise {A} e.

Definition bind {A B : Type} (m : result A) (k : A -> result B) : result B :=
  match m with
  | Ok a => k a
  | Raise e => Raise e
  end.

(** [hasattr(o, name)]: true exactly when [getattr(o, name)] does not
    raise. *)
Definition hasattr {A : Type} (lookup : result A) : bool :=
  match lookup with
  | Ok _ => true
  | Raise _ => false
  end.

(** [try: body / except AttributeError: handler]. *)
Definition try_except_AttributeError {A : Type}
    (body handler : result A) : result A :=
  match body with
  | Raise AttributeError => handler
  | other => other
  end.

(** Reading a local variable that may not have been assigned. *)
Definition local {A : Type} (v : option A) : result A :=
  match v with
  | Some a => Ok a
  | None => Raise UnboundLocalError
  end.

End Py.

Import Py.

Notation "x <- m ;; k" := (bind m (fun x => k))
  (at level 61, m at next level, right associativity).

(** ** numpy: two-dimensional arrays *)

Module np.

(** A 2-D array of shape [(shape0, shape1)], stored by rows.  The number of
    columns is kept apart from the rows, as an array with no row still has
    one. *)
Record ndarray (A : Type) : Type := mk_ndarray
  { shape1 : nat;
    rows : list (list A) }.

Arguments mk_ndarray {A} shape1 rows.
Arguments shape1 {A} n.
Arguments rows {A} n.

Definition shape0 {A : Type} (a : ndarray A) : nat := length (rows a).

(** [a != v], element by element. *)
Definition ne_scalar (a : ndarray Z) (v : Z) : ndarray bool :=
  {| shape1 := shape1 a;
     rows := map (map (fun x => negb (x =? v))) (rows a) |}.

(** [np.all(m, axis=1)]: one boolean per row. *)
Definition all_axis1 (m : ndarray bool) : list bool :=
  map (forallb (fun b => b)) (rows m).

Fixpoint take_rows {A : Type} (mask : list bool) (rs : list (list A))
    : list (list A) :=
  match mask, rs with
  | b :: mask', r :: rs' =>
      if b then r :: take_rows mask' rs' else take_rows mask' rs'
  | _, _ => []
  end.

(** [a[mask, :]] for a 1-D boolean [mask]: the rows whose mask entry is
    true, in order.  numpy refuses a mask whose length is not
    [a.shape[0]]. *)
Definition getitem_mask {A : Type} (a : ndarray A) (mask : list bool)
    : result (ndarray A) :=
  if Nat.eqb (length mask) (shape0 a)
  then Ok {| shape1 := shape1 a; rows := take_rows mask (rows a) |}
  else Raise IndexError.

(** What the source passes where numpy expects a dtype: the Python type
    [bool] (line 109) and the Python integer [1] (line 117). *)
Inductive dtype_arg : Type :=
| dtype_bool
| dtype_pyint (z : Z).

Definition full (shape : nat * nat) (v : bool) : ndarray bool :=
  {| shape1 := snd shape;
     rows := repeat (repeat v (snd shape)) (fst shape) |}.

(** [np.zeros(shape, dtype)] and [np.ones(shape, dtype)].  numpy converts
    its second argument with [np.dtype]; a Python integer names no data
    type and the conversion raises [TypeError]. *)
Definition zeros (shape : nat * nat) (dtype : dtype_arg)
    : result (ndarray bool) :=
  match dtype with
  | dtype_bool => Ok (full shape false)
  | dtype_pyint _ => Raise TypeError
  end.

Definition ones (shape : nat * nat) (dtype : dtype_arg)
    : result (ndarray bool) :=
  match dtype with
  | dtype_bool => Ok (full shape true)
  | dtype_pyint _ => Raise TypeError
  end.

(** [np.vstack((a, b))]: the rows of [a], then those of [b]; the column
    counts must agree. *)
Definition vstack {A : Type} (a b : ndarray A) : result (ndarray A) :=
  if Nat.eqb (shape1 a) (shape1 b)
  then Ok {| shape1 := shape1 a; rows := rows a ++ rows b |}
  else Raise ValueError.

End np.

(** ** The grid object and [getNeighborship] *)

Module gridtools.

Import np.

(** [G.faces], with its [neighbors] array. *)
Record Faces : Type := mk_Faces
  { neighbors : ndarray Z }.

(** [G.nnc]: an object that may or may not have a [cells] attribute. *)
Record NNC : Type := mk_NNC
  { cells : option (ndarray Z) }.

(** A grid: [faces] is required, the [nnc] attribute is optional. *)
Record Grid : Type := mk_Grid
  { faces : Faces;
    nnc : option NNC }.

Definition getattr_nnc (G : Grid) : result NNC :=
  match nnc G with
  | Some s => Ok s
  | None => Raise AttributeError
  end.

Definition getattr_cells (s : NNC) : result (ndarray Z) :=
  match cells s with
  | Some c => Ok c
  | None => Raise AttributeError
  end.

(** [G.nnc.cells] *)
Definition G_nnc_cells (G : Grid) : result (ndarray Z) :=
  s <- getattr_nnc G ;; getattr_cells s.

(** What a call returns: [N] alone, or the tuple [(N, isnnc)]. *)
Inductive retval : Type :=
| RetN (N : ndarray Z)
| RetPair (N : ndarray Z) (isnnc : ndarray bool).

Definition getNeighborship
    (G : Grid) (kind : string) (incBdry : bool) (nargout : Z)
    : result retval :=
  (* Geometric neighborship (default) *)
  let N := neighbors (faces G) in
  N <- (if negb incBdry
        then (* Exclude boundary connections *)
             getitem_mask N (all_axis1 (ne_scalar N (-1)))
        else Ok N) ;;
  isnnc <- (if 2 <=? nargout
            then z <- zeros (shape0 N, 1%nat) dtype_bool ;; Ok (Some z)
            else Ok None) ;;
  N <- (if String.eqb kind "Topological"
           && hasattr (getattr_nnc G)
           && hasattr (G_nnc_cells G)
        then c <- G_nnc_cells G ;;
             if Nat.eqb (shape1 c) 2
             then vstack N c
             else Raise AssertionError
        else Ok N) ;;
  if 2 <=? nargout
  then
    isnnc0 <- local isnnc ;;
    isnnc <- try_except_AttributeError
               (c <- G_nnc_cells G ;;
                o <- ones (shape0 c, 1%nat) (dtype_pyint 1) ;;
                vstack isnnc0 o)
               (Ok isnnc0) ;;
    Ok (RetPair N isnnc)
  else Ok (RetN N).

End gridtools.

Import np gridtools.

(** ** Concrete grids *)

Module Examples.

Definition arr (c : nat) (rs : list (list Z)) : ndarray Z :=
  {| shape1 := c; rows := rs |}.

(** [faces.neighbors = [[0,1],[1,2],[-1,0]]], no [nnc]. *)
Definition G_plain : Grid :=
  {| faces := {| neighbors := arr 2 [[0; 1]; [1; 2]; [-1; 0]] |};
     nnc := None |}.

(** The same faces, with [nnc.cells = [[3,5]]]. *)
Definition G_nnc : Grid :=
  {| faces := {| neighbors := arr 2 [[0; 1]; [1; 2]; [-1; 0]] |};
     nnc := Some {| cells := Some (arr 2 [[3; 5]]) |} |}.

(** The same faces, with an [nnc] object that has no [cells]. *)
Definition G_nnc_no_cells : Grid :=
  {| faces := {| neighbors := arr 2 [[0; 1]; [1; 2]; [-1; 0]] |};
     nnc := Some {| cells := None |} |}.

(** The same faces, with a three-column [nnc.cells]. *)
Definition G_nnc_3col : Grid :=
  {| faces := {| neighbors := arr 2 [[0; 1]; [1; 2]; [-1; 0]] |};
     nnc := Some {| cells := Some (arr 3 [[3; 5; 7]]) |} |}.

(** The same faces, with an [nnc.cells] row that holds the sentinel. *)
Definition G_nnc_boundary : Grid :=
  {| faces := {| neighbors := arr 2 [[0; 1]; [1; 2]; [-1; 0]] |};
     nnc := Some {| cells := Some (arr 2 [[-1; 4]]) |} |}.

End Examples.

Import Examples.

(** ** Values the statements speak of *)

(** A row none of whose entries is the boundary sentinel [-1]. *)
Definition no_sentinel (r : list Z) : bool :=
  forallb (fun c => negb (c =? -1)) r.

(** The geometric block of a call: [faces.neighbors], without its boundary
    rows unless [incBdry]. *)
Definition geometric (G : Grid) (incBdry : bool) : ndarray Z :=
  {| shape1 := shape1 (neighbors (faces G));
     rows := if incBdry
             then rows (neighbors (faces G))
             else filter no_sentinel (rows (neighbors (faces G))) |}.

(** The array of a returned value. *)
Definition ret_N (r : retval) : ndarray Z :=
  match r with
  | RetN N => N
  | RetPair N _ => N
  end.

(** The value a call returns when no NNC row and no NNC flag is added. *)
Definition ret_geometric (G : Grid) (incBdry : bool) (nargout : Z) : retval :=
  if 2 <=? nargout
  then RetPair (geometric G incBdry)
               (full (shape0 (geometric G incBdry), 1%nat) false)
  else RetN (geometric G incBdry).

(** An array all of whose rows have [shape1] entries. *)
Definition rectangular {A : Type} (a : ndarray A) : Prop :=
  Forall (fun r => length r = shape1 a) (rows a).

(** The rows that the Topological block of lines 111-113 appends. *)
Definition nnc_rows (G : Grid) (kind : string) : list (list Z) :=
  if String.eqb kind "Topological"
  then match G_nnc_cells G with
       | Ok c => rows c
       | Raise _ => []
       end
  else [].

(** A grid without [nnc] built on a neighborship array. *)
Definition grid_of (N : ndarray Z) : Grid :=
  {| faces := {| neighbors := N |}; nnc := None |}.

(** ** The specification's examples *)

Example plain_excl :
  getNeighborship G_plain "Geometrical" false 1
  = Ok (RetN (arr 2 [[0; 1]; [1; 2]])).
Proof. reflexivity. Qed.

Example plain_incl :
  getNeighborship G_plain "Geometrical" true 1
  = Ok (RetN (arr 2 [[0; 1]; [1; 2]; [-1; 0]])).
Proof. reflexivity. Qed.

Example nnc_topological_N_only :
  getNeighborship G_nnc "Topological" false 1
  = Ok (RetN (arr 2 [[0; 1]; [1; 2]; [3; 5]])).
Proof. reflexivity. Qed.

Example plain_flags :
  getNeighborship G_plain "Topological" false 2
  = Ok (RetPair (arr 2 [[0; 1]; [1; 2]])
                {| shape1 := 1; rows := [[false]; [false]] |}).
Proof. reflexivity. Qed.

(** ** The boundary filter *)

Lemma no_sentinel_pair (a b : Z) :
  no_sentinel [a; b] = true <-> a <> -1 /\ b <> -1.
Proof.
  unfold no_sentinel; simpl.
  rewrite andb_true_r, andb_true_iff, !negb_true_iff, !Z.eqb_neq.
  tauto.
Qed.

Lemma forallb_id_map {A : Type} (p : A -> bool) (l : list A) :
  forallb (fun b => b) (map p l) = forallb p l.
Proof.
  induction l as [|x l IH]; simpl; [reflexivity | now rewrite IH].
Qed.

Lemma take_rows_map {A : Type} (p : list A -> bool) (rs : list (list A)) :
  take_rows (map p rs) rs = filter p rs.
Proof.
  induction rs as [|r rs IH]; simpl; [reflexivity|].
  destruct (p r); now rewrite IH.
Qed.

Lemma all_axis1_ne_scalar (N : ndarray Z) (v : Z) :
  all_axis1 (ne_scalar N v)
  = map (forallb (fun c => negb (c =? v))) (rows N).
Proof.
  unfold all_axis1, ne_scalar; simpl.
  rewrite map_map.
  apply map_ext; intros r; apply forallb_id_map.
Qed.

Lemma exclude_boundary (N : ndarray Z) :
  getitem_mask N (all_axis1 (ne_scalar N (-1)))
  = Ok {| shape1 := shape1 N; rows := filter no_sentinel (rows N) |}.
Proof.
  rewrite all_axis1_ne_scalar.
  unfold getitem_mask, shape0.
  rewrite length_map, Nat.eqb_refl.
  now rewrite (take_rows_map (forallb (fun c => negb (c =? -1)))).
Qed.

Lemma shape0_full (n m : nat) (v : bool) : shape0 (full (n, m) v) = n.
Proof. unfold shape0, full; simpl; apply repeat_length. Qed.

(** ** The function, block by block *)

(** Lines 102-109 always succeed: [N] is the geometric block and [isnnc],
    when built, a column of [False]. *)
Lemma getNeighborship_blocks (G : Grid) (kind : string) (incBdry : bool)
    (nargout : Z) :
  getNeighborship G kind incBdry nargout
  = (N <- (if String.eqb kind "Topological"
              && hasattr (getattr_nnc G)
              && hasattr (G_nnc_cells G)
           then c <- G_nnc_cells G ;;
                if Nat.eqb (shape1 c) 2
                then vstack (geometric G incBdry) c
                else Raise AssertionError
           else Ok (geometric G incBdry)) ;;
     if 2 <=? nargout
     then
       isnnc <- try_except_AttributeError
                  (c <- G_nnc_cells G ;;
                   o <- ones (shape0 c, 1%nat) (dtype_pyint 1) ;;
                   vstack (full (shape0 (geometric G incBdry), 1%nat) false) o)
                  (Ok (full (shape0 (geometric G incBdry), 1%nat) false)) ;;
       Ok (RetPair N isnnc)
     else Ok (RetN N)).
Proof.
  unfold getNeighborship.
  assert (E : (if negb incBdry
               then getitem_mask (neighbors (faces G))
                      (all_axis1 (ne_scalar (neighbors (faces G)) (-1)))
               else Ok (neighbors (faces G)))
              = Ok (geometric G incBdry)).
  { unfold geometric. destruct incBdry; simpl.
    - now destruct (neighbors (faces G)).
    - apply exclude_boundary. }
  rewrite E; simpl.
  destruct (2 <=? nargout); reflexivity.
Qed.

(** A grid without [nnc], or whose [nnc] has no [cells]: looking
    [G.nnc.cells] up raises [AttributeError]. *)
Lemma G_nnc_cells_absent (G : Grid) :
  (nnc G = None \/ exists s, nnc G = Some s /\ cells s = None)
  <-> G_nnc_cells G = Raise AttributeError.
Proof.
  unfold G_nnc_cells, getattr_nnc, getattr_cells.
  destruct (nnc G) as [s|]; simpl.
  - destruct (cells s) as [c|] eqn:Ec; split.
    + intros [H | (s' & H & H')]; [discriminate|].
      injection H as <-. congruence.
    + discriminate.
    + reflexivity.
    + intros _. right. now exists s.
  - split; [reflexivity | now left].
Qed.

Lemma G_nnc_cells_present (G : Grid) (c : ndarray Z) :
  (exists s, nnc G = Some s /\ cells s = Some c) <-> G_nnc_cells G = Ok c.
Proof.
  unfold G_nnc_cells, getattr_nnc, getattr_cells.
  destruct (nnc G) as [s|]; simpl.
  - destruct (cells s) as [c'|] eqn:Ec; split.
    + intros (s' & H & H'). injection H as <-. congruence.
    + intros H. injection H as <-. now exists s.
    + intros (s' & H & H'). injection H as <-. congruence.
    + discriminate.
  - split; [intros (s & H & _) | ]; discriminate.
Qed.

Lemma G_nnc_cells_cases (G : Grid) :
  G_nnc_cells G = Raise AttributeError \/ exists c, G_nnc_cells G = Ok c.
Proof.
  unfold G_nnc_cells, getattr_nnc, getattr_cells.
  destruct (nnc G) as [s|]; simpl; [|now left].
  destruct (cells s) as [c|]; [right; now exists c | now left].
Qed.

Lemma G_nnc_cells_hasattr (G : Grid) (c : ndarray Z) :
  G_nnc_cells G = Ok c -> hasattr (getattr_nnc G) = true.
Proof.
  intros Ec. apply G_nnc_cells_present in Ec as (s & Hs & _).
  unfold getattr_nnc. now rewrite Hs.
Qed.

(** Case analysis on the first computation of a sequence. *)
Ltac case_bind :=
  match goal with
  | |- context [bind ?m _] =>
      let e := fresh "e" in destruct m as [? | e]; simpl
  end.

(** No [nnc.cells]: every call returns the geometric block, with a column
    of [False] when flags are requested. *)
Lemma getNeighborship_no_cells (G : Grid) (kind : string) (incBdry : bool)
    (nargout : Z) :
  G_nnc_cells G = Raise AttributeError ->
  getNeighborship G kind incBdry nargout
  = Ok (ret_geometric G incBdry nargout).
Proof.
  intros E. rewrite getNeighborship_blocks, E; simpl.
  rewrite andb_false_r; simpl.
  unfold ret_geometric. destruct (2 <=? nargout); reflexivity.
Qed.

(** Any kind but ["Topological"], [N] alone requested: the geometric
    block, whatever [nnc] holds. *)
Lemma getNeighborship_other_kind_N (G : Grid) (kind : string)
    (incBdry : bool) (nargout : Z) :
  kind <> "Topological"%string ->
  nargout < 2 ->
  getNeighborship G kind incBdry nargout = Ok (RetN (geometric G incBdry)).
Proof.
  intros Hk Hn. rewrite getNeighborship_blocks.
  apply String.eqb_neq in Hk. rewrite Hk; simpl.
  apply Z.leb_gt in Hn. now rewrite Hn.
Qed.

(** Flags requested on a grid with [nnc.cells], any kind but
    ["Topological"]: [np.ones] rejects its dtype argument. *)
Lemma getNeighborship_other_kind_flags (G : Grid) (kind : string)
    (incBdry : bool) (nargout : Z) (c : ndarray Z) :
  kind <> "Topological"%string ->
  G_nnc_cells G = Ok c ->
  2 <= nargout ->
  getNeighborship G kind incBdry nargout = Raise TypeError.
Proof.
  intros Hk Ec Hn. rewrite getNeighborship_blocks, Ec.
  apply String.eqb_neq in Hk. rewrite Hk; simpl.
  apply Z.leb_le in Hn. now rewrite Hn.
Qed.

(** ["Topological"] on a grid with [nnc.cells]: the three outcomes. *)
Lemma getNeighborship_topological_bad_cells (G : Grid) (incBdry : bool)
    (nargout : Z) (c : ndarray Z) :
  G_nnc_cells G = Ok c ->
  shape1 c <> 2%nat ->
  getNeighborship G "Topological" incBdry nargout = Raise AssertionError.
Proof.
  intros Ec Hc. rewrite getNeighborship_blocks, Ec; simpl.
  rewrite (G_nnc_cells_hasattr G c Ec); simpl.
  apply Nat.eqb_neq in Hc. now rewrite Hc.
Qed.

Lemma getNeighborship_topological_N (G : Grid) (incBdry : bool)
    (nargout : Z) (c : ndarray Z) :
  G_nnc_cells G = Ok c ->
  shape1 c = 2%nat ->
  shape1 (neighbors (faces G)) = 2%nat ->
  nargout < 2 ->
  getNeighborship G "Topological" incBdry nargout
  = Ok (RetN {| shape1 := 2;
                rows := rows (geometric G incBdry) ++ rows c |}).
Proof.
  intros Ec Hc HN Hn. rewrite getNeighborship_blocks, Ec; simpl.
  rewrite (G_nnc_cells_hasattr G c Ec); simpl.
  unfold vstack; simpl. rewrite Hc, HN; simpl.
  apply Z.leb_gt in Hn. now rewrite Hn.
Qed.

Lemma getNeighborship_topological_flags (G : Grid) (incBdry : bool)
    (nargout : Z) (c : ndarray Z) :
  G_nnc_cells G = Ok c ->
  shape1 c = 2%nat ->
  shape1 (neighbors (faces G)) = 2%nat ->
  2 <= nargout ->
  getNeighborship G "Topological" incBdry nargout = Raise TypeError.
Proof.
  intros Ec Hc HN Hn. rewrite getNeighborship_blocks, Ec; simpl.
  rewrite (G_nnc_cells_hasattr G c Ec); simpl.
  unfold vstack; simpl. rewrite Hc, HN; simpl.
  apply Z.leb_le in Hn. now rewrite Hn.
Qed.

(** With [nnc.cells] present and flags requested, line 117 is reached with a
    lookup that succeeds, so the call ends in an exception whatever the
    kind: no call returns on this path. *)
Lemma getNeighborship_cells_flags_raise (G : Grid) (kind : string)
    (incBdry : bool) (nargout : Z) (c : ndarray Z) :
  G_nnc_cells G = Ok c ->
  2 <= nargout ->
  exists e, getNeighborship G kind incBdry nargout = Raise e.
Proof.
  intros Ec Hn. rewrite getNeighborship_blocks, Ec.
  apply Z.leb_le in Hn. rewrite Hn.
  case_bind; eauto.
Qed.

(** The shape of a returned value follows the test [nargout >= 2]. *)
Lemma getNeighborship_arity (G : Grid) (kind : string) (incBdry : bool)
    (nargout : Z) (r : retval) :
  getNeighborship G kind incBdry nargout = Ok r ->
  (2 <= nargout /\ exists N isnnc, r = RetPair N isnnc)
  \/ (nargout <= 1 /\ exists N, r = RetN N).
Proof.
  rewrite getNeighborship_blocks.
  case_bind; [|discriminate].
  destruct (2 <=? nargout) eqn:Hn.
  - apply Z.leb_le in Hn.
    case_bind; [|discriminate].
    intros H; injection H as <-. left; eauto.
  - apply Z.leb_gt in Hn.
    intros H; injection H as <-. right; split; [lia | eauto].
Qed.

(** Only the outcome of the test [nargout >= 2] enters the computation. *)
Lemma getNeighborship_nargout_threshold (G : Grid) (kind : string)
    (incBdry : bool) (n m : Z) :
  (2 <=? n) = (2 <=? m) ->
  getNeighborship G kind incBdry n = getNeighborship G kind incBdry m.
Proof.
  intros E. rewrite !getNeighborship_blocks, E. reflexivity.
Qed.

(** * The outcome of every call *)

Lemma getNeighborship_topological_mismatch (G : Grid) (incBdry : bool)
    (nargout : Z) (c : ndarray Z) :
  G_nnc_cells G = Ok c ->
  shape1 c = 2%nat ->
  shape1 (neighbors (faces G)) <> 2%nat ->
  getNeighborship G "Topological" incBdry nargout = Raise ValueError.
Proof.
  intros Ec Hc HN. rewrite getNeighborship_blocks, Ec; simpl.
  rewrite (G_nnc_cells_hasattr G c Ec); simpl.
  unfold vstack; simpl. rewrite Hc; simpl.
  apply Nat.eqb_neq in HN. now rewrite HN.
Qed.

(** The whole function in closed form: what is returned or raised, by the
    presence and shape of [nnc.cells], the kind and the test on
    [nargout]. *)
Lemma getNeighborship_closed_form (G : Grid) (kind : string)
    (incBdry : bool) (nargout : Z) :
  getNeighborship G kind incBdry nargout
  = match G_nnc_cells G with
    | Raise _ => Ok (ret_geometric G incBdry nargout)
    | Ok c =>
        if String.eqb kind "Topological"
        then if Nat.eqb (shape1 c) 2
             then if Nat.eqb (shape1 (neighbors (faces G))) 2
                  then if 2 <=? nargout
                       then Raise TypeError
                       else Ok (RetN {| shape1 := 2;
                                        rows := rows (geometric G incBdry)
                                                ++ rows c |})
                  else Raise ValueError
             else Raise AssertionError
        else if 2 <=? nargout
             then Raise TypeError
             else Ok (RetN (geometric G incBdry))
    end.
Proof.
  destruct (G_nnc_cells_cases G) as [E | [c E]]; rewrite E.
  - now apply getNeighborship_no_cells.
  - destruct (String.eqb_spec kind "Topological") as [-> | Hk].
    + destruct (Nat.eqb_spec (shape1 c) 2) as [Hc | Hc].
      * destruct (Nat.eqb_spec (shape1 (neighbors (faces G))) 2) as [HN | HN].
        -- destruct (Z.leb_spec 2 nargout) as [Hn | Hn].
           ++ now apply (getNeighborship_topological_flags G incBdry nargout c).
           ++ now apply (getNeighborship_topological_N G incBdry nargout c).
        -- now apply (getNeighborship_topological_mismatch G incBdry nargout c).
      * now apply (getNeighborship_topological_bad_cells G incBdry nargout c).
    + destruct (Z.leb_spec 2 nargout) as [Hn | Hn].
      * now apply (getNeighborship_other_kind_flags G kind incBdry nargout c).
      * now apply getNeighborship_other_kind_N.
Qed.

(** The rows of a returned [N]: the geometric block, then the NNC rows. *)
Lemma getNeighborship_returned_rows (G : Grid) (kind : string)
    (incBdry : bool) (nargout : Z) (r : retval) :
  getNeighborship G kind incBdry nargout = Ok r ->
  rows (ret_N r) = rows (geometric G incBdry) ++ nnc_rows G kind.
Proof.
  rewrite getNeighborship_closed_form. unfold nnc_rows, ret_geometric.
  destruct (G_nnc_cells G) as [c | e].
  - destruct (String.eqb kind "Topological").
    + destruct (Nat.eqb (shape1 c) 2); [|discriminate].
      destruct (Nat.eqb (shape1 (neighbors (faces G))) 2); [|discriminate].
      destruct (2 <=? nargout); [discriminate|].
      intros H; injection H as <-. reflexivity.
    + destruct (2 <=? nargout); [discriminate|].
      intros H; injection H as <-. simpl. now rewrite app_nil_r.
  - intros H; injection H as <-.
    destruct (2 <=? nargout), (String.eqb kind "Topological"); simpl;
      now rewrite app_nil_r.
Qed.

Lemma no_sentinel_spec (r : list Z) :
  no_sentinel r = true <-> ~ In (-1) r.
Proof.
  unfold no_sentinel. rewrite forallb_forall. split.
  - intros H Hin. specialize (H _ Hin). discriminate.
  - intros H x Hin. apply negb_true_iff, Z.eqb_neq. congruence.
Qed.

Lemma filter_id {A : Type} (p : A -> bool) (l : list A) :
  (forall x, In x l -> p x = true) -> filter p l = l.
Proof.
  induction l as [|x l IH]; simpl; intros H; [reflexivity|].
  rewrite (H x) by now left.
  f_equal. apply IH. intros y Hy. apply H. now right.
Qed.

Lemma filter_filter {A : Type} (p : A -> bool) (l : list A) :
  filter p (filter p l) = filter p l.
Proof.
  apply filter_id. intros x Hx. now apply filter_In in Hx.
Qed.

(** The column count of a returned [N]. *)
Lemma getNeighborship_returned_shape1 (G : Grid) (kind : string)
    (incBdry : bool) (nargout : Z) (r : retval) :
  getNeighborship G kind incBdry nargout = Ok r ->
  shape1 (ret_N r) = shape1 (neighbors (faces G)).
Proof.
  rewrite getNeighborship_closed_form. unfold ret_geometric.
  destruct (G_nnc_cells G) as [c | e].
  - destruct (String.eqb kind "Topological").
    + destruct (Nat.eqb (shape1 c) 2); [|discriminate].
      destruct (Nat.eqb_spec (shape1 (neighbors (faces G))) 2) as [HN | HN];
        [|discriminate].
      destruct (2 <=? nargout); [discriminate|].
      intros H; injection H as <-. simpl. now rewrite HN.
    + destruct (2 <=? nargout); [discriminate|].
      intros H; now injection H as <-.
  - intros H; injection H as <-. now destruct (2 <=? nargout).
Qed.

(** Where a call returns: on a grid without [nnc.cells], and, with [N]
    alone requested, wherever the Topological block does not fail. *)
Lemma getNeighborship_returns (G : Grid) (kind : string) (incBdry : bool)
    (nargout : Z) :
  G_nnc_cells G = Raise AttributeError
  \/ (nargout <= 1
      /\ (kind <> "Topological"%string
          \/ exists c, G_nnc_cells G = Ok c
                       /\ shape1 c = 2%nat
                       /\ shape1 (neighbors (faces G)) = 2%nat)) ->
  exists r, getNeighborship G kind incBdry nargout = Ok r.
Proof.
  rewrite getNeighborship_closed_form.
  intros [E | [Hn [Hk | (c & E & Hc & HN)]]].
  - rewrite E. eauto.
  - apply String.eqb_neq in Hk. rewrite Hk.
    assert (En : (2 <=? nargout) = false) by (apply Z.leb_gt; lia).
    rewrite En. destruct (G_nnc_cells G); eauto.
  - rewrite E, Hc, HN; simpl.
    assert (En : (2 <=? nargout) = false) by (apply Z.leb_gt; lia).
    rewrite En. destruct (String.eqb kind "Topological"); eauto.
Qed.

(** * The claims *)

(** ** C1 *)

(** C1 (fails on the code): in Geometrical mode with flags requested the
    returned [isnnc] should be all-false also for a grid that carries
    [nnc.cells].  On such a grid the call returns no [isnnc] at all: the
    flag block of lines 115-119 runs for every kind, finds [G.nnc.cells],
    and raises [TypeError] in [np.ones((1, 1), 1)]. *)
Theorem C1_geometrical_flags_on_nnc_grid_raise :
  getNeighborship G_nnc "Geometrical" false 2 = Raise TypeError.
Proof. reflexivity. Qed.

(** ** C2 *)

(** C2: whenever a call returns the pair [(N, isnnc)], [isnnc] has as many
    rows as [N], for every grid, kind, [incBdry] and [nargout]. *)
Theorem C2_isnnc_rows_match_N (G : Grid) (kind : string) (incBdry : bool)
    (nargout : Z) (N : ndarray Z) (isnnc : ndarray bool) :
  getNeighborship G kind incBdry nargout = Ok (RetPair N isnnc) ->
  shape0 isnnc = shape0 N.
Proof.
  intros H.
  destruct (getNeighborship_arity _ _ _ _ _ H) as [[Hn _] | [_ [N' HN']]];
    [|discriminate].
  destruct (G_nnc_cells_cases G) as [E | [c E]].
  - rewrite (getNeighborship_no_cells _ _ _ _ E) in H.
    unfold ret_geometric in H.
    apply Z.leb_le in Hn. rewrite Hn in H.
    injection H as <- <-. apply shape0_full.
  - destruct (getNeighborship_cells_flags_raise G kind incBdry nargout c E Hn)
      as [e He].
    congruence.
Qed.

Lemma C2_isnnc_rows_match_N_witness :
  getNeighborship G_plain "Topological" false 2
  = Ok (RetPair (arr 2 [[0; 1]; [1; 2]])
                {| shape1 := 1; rows := [[false]; [false]] |})
  /\ shape0 {| shape1 := 1; rows := [[false]; [false]] |}
     = shape0 (arr 2 [[0; 1]; [1; 2]]).
Proof.
  split; [reflexivity|].
  apply (C2_isnnc_rows_match_N G_plain "Topological" false 2).
  reflexivity.
Defined.

(** ** C3 *)

(** C3 (fails on the code): in Topological mode with flags requested, on a
    grid with a K x 2 [nnc.cells], [isnnc] should be M [False] followed by
    K [True].  On the grid of the specification's example
    ([faces.neighbors = [[0,1],[1,2],[-1,0]]], [nnc.cells = [[3,5]]]) the
    call raises [TypeError] in [np.ones((1, 1), 1)] and returns nothing. *)
Theorem C3_topological_flags_raise :
  getNeighborship G_nnc "Topological" false 2 = Raise TypeError.
Proof. reflexivity. Qed.

(** ** C4 *)

(** C4 (fails on the code): every Topological call on a grid with a K x 2
    [nnc.cells] should return an [N] of M + K rows.  With the boundary rows
    included and the flags requested, [N] is built (line 113) but the call
    then raises [TypeError] at line 117 and returns no [N]. *)
Theorem C4_topological_N_lost_with_flags :
  getNeighborship G_nnc "Topological" true 3 = Raise TypeError.
Proof. reflexivity. Qed.

(** ** C5 *)

(** C5, as stated, fails: a Topological call on a grid with [nnc.cells]
    returns the NNC rows too, so [N] is not exactly the rows of
    [faces.neighbors] that are free of the sentinel. *)
Lemma C5_topological_appends_nnc_rows :
  ~ (exists r,
        getNeighborship G_nnc "Topological" false 1 = Ok r
        /\ rows (ret_N r)
           = filter (forallb (fun c => negb (c =? -1)))
               (rows (neighbors (faces G_nnc)))).
Proof.
  intros (r & H & Hr).
  vm_compute in H. injection H as <-.
  vm_compute in Hr. discriminate.
Qed.

(** C5 (amended): for every grid and every kind, the [N] of a call that
    returns has the columns of [faces.neighbors], and its rows are, with
    [incBdry = false], exactly the rows of [faces.neighbors] with no entry
    equal to [-1], in their order, and with [incBdry = true] all rows of
    [faces.neighbors]; they are followed by the rows of [nnc.cells] when
    the kind is Topological and the grid has [nnc.cells], and by nothing
    otherwise.  The call returns on every grid without [nnc.cells], and
    with [nargout <= 1] whenever the kind is not Topological or [nnc.cells]
    and [faces.neighbors] both have two columns. *)
Theorem C5_boundary_filter (G : Grid) (kind : string) (incBdry : bool)
    (nargout : Z) :
  (forall r,
      getNeighborship G kind incBdry nargout = Ok r ->
      shape1 (ret_N r) = shape1 (neighbors (faces G))
      /\ rows (ret_N r)
         = (if incBdry
            then rows (neighbors (faces G))
            else filter (forallb (fun c => negb (c =? -1)))
                   (rows (neighbors (faces G))))
           ++ nnc_rows G kind)
  /\ (kind <> "Topological"%string \/ G_nnc_cells G = Raise AttributeError ->
      nnc_rows G kind = [])
  /\ (G_nnc_cells G = Raise AttributeError
      \/ (nargout <= 1
          /\ (kind <> "Topological"%string
              \/ exists c, G_nnc_cells G = Ok c
                           /\ shape1 c = 2%nat
                           /\ shape1 (neighbors (faces G)) = 2%nat)) ->
      exists r, getNeighborship G kind incBdry nargout = Ok r).
Proof.
  split; [|split].
  - intros r H. split.
    + now apply (getNeighborship_returned_shape1 G kind incBdry nargout).
    + rewrite (getNeighborship_returned_rows _ _ _ _ _ H).
      unfold geometric; simpl. now destruct incBdry.
  - unfold nnc_rows. intros [Hk | E].
    + apply String.eqb_neq in Hk. now rewrite Hk.
    + rewrite E. now destruct (String.eqb kind "Topological").
  - apply getNeighborship_returns.
Qed.

Lemma C5_boundary_filter_witness :
  (exists r,
      getNeighborship G_nnc "Topological" false 1 = Ok r
      /\ rows (ret_N r) = [[0; 1]; [1; 2]] ++ [[3; 5]])
  /\ (exists r,
         getNeighborship G_nnc "Geometrical" false 1 = Ok r
         /\ rows (ret_N r) = [[0; 1]; [1; 2]] ++ []).
Proof.
  split.
  - destruct (C5_boundary_filter G_nnc "Topological" false 1)
      as (Hrows & _ & Hret).
    destruct Hret as [r Hr].
    { right. split; [lia|]. right. exists (arr 2 [[3; 5]]).
      repeat split. }
    exists r. split; [exact Hr|].
    now destruct (Hrows r Hr) as [_ ->].
  - destruct (C5_boundary_filter G_nnc "Geometrical" false 1)
      as (Hrows & _ & Hret).
    destruct Hret as [r Hr].
    { right. split; [lia|]. left. discriminate. }
    exists r. split; [exact Hr|].
    now destruct (Hrows r Hr) as [_ ->].
Defined.

(** ** C6 *)

(** C6: in Topological mode, on a grid whose [nnc.cells] does not have
    exactly two columns, the call raises the assertion error of line 112
    and returns nothing, whatever [incBdry] and [nargout]. *)
Theorem C6_bad_cells_shape_raises (G : Grid) (s : NNC) (c : ndarray Z)
    (incBdry : bool) (nargout : Z) :
  nnc G = Some s ->
  cells s = Some c ->
  shape1 c <> 2%nat ->
  getNeighborship G "Topological" incBdry nargout = Raise AssertionError.
Proof.
  intros Hs Hc Hne.
  apply (getNeighborship_topological_bad_cells G incBdry nargout c);
    [|assumption].
  apply G_nnc_cells_present. now exists s.
Qed.

Lemma C6_bad_cells_shape_raises_witness :
  getNeighborship G_nnc_3col "Topological" false 2 = Raise AssertionError.
Proof.
  apply (C6_bad_cells_shape_raises G_nnc_3col
           {| cells := Some (arr 3 [[3; 5; 7]]) |} (arr 3 [[3; 5; 7]]));
    [reflexivity | reflexivity | simpl; lia].
Defined.

(** ** C7 *)

(** C7: on a grid whose [nnc] is absent, or present without [cells], a
    Topological call returns without error; [N] is the geometric relation
    (boundary rows removed unless [incBdry]), and when flags are requested
    [isnnc] is returned too, one [False] per row of [N]. *)
Theorem C7_topological_without_cells (G : Grid) (incBdry : bool)
    (nargout : Z) :
  nnc G = None \/ (exists s, nnc G = Some s /\ cells s = None) ->
  let N :=
    {| shape1 := shape1 (neighbors (faces G));
       rows := if incBdry
               then rows (neighbors (faces G))
               else filter (forallb (fun c => negb (c =? -1)))
                      (rows (neighbors (faces G))) |} in
  (nargout <= 1 ->
   getNeighborship G "Topological" incBdry nargout = Ok (RetN N))
  /\ (2 <= nargout ->
      getNeighborship G "Topological" incBdry nargout
      = Ok (RetPair N {| shape1 := 1;
                         rows := repeat [false] (length (rows N)) |})).
Proof.
  intros H N.
  apply G_nnc_cells_absent in H.
  rewrite (getNeighborship_no_cells G "Topological" incBdry nargout H).
  unfold ret_geometric. split; intros Hn.
  - assert (E : (2 <=? nargout) = false) by (apply Z.leb_gt; lia).
    now rewrite E.
  - assert (E : (2 <=? nargout) = true) by (apply Z.leb_le; lia).
    now rewrite E.
Qed.

Lemma C7_topological_without_cells_witness :
  getNeighborship G_nnc_no_cells "Topological" false 1
  = Ok (RetN (arr 2 [[0; 1]; [1; 2]]))
  /\ getNeighborship G_nnc_no_cells "Topological" false 2
     = Ok (RetPair (arr 2 [[0; 1]; [1; 2]])
                   {| shape1 := 1; rows := [[false]; [false]] |}).
Proof.
  assert (H : nnc G_nnc_no_cells = None
              \/ (exists s, nnc G_nnc_no_cells = Some s /\ cells s = None)).
  { right. exists {| cells := None |}. split; reflexivity. }
  split.
  - apply (C7_topological_without_cells G_nnc_no_cells false 1 H). lia.
  - apply (C7_topological_without_cells G_nnc_no_cells false 2 H). lia.
Defined.

(** ** C8 *)

(** C8 (fails on the code): two grids with the same [faces.neighbors], one
    without [nnc] and one with [nnc.cells = [[3,5]]], should give the same
    Geometrical result.  With flags requested the first call returns
    [(N, isnnc)] and the second raises [TypeError]: lines 115-119 read
    [G.nnc.cells] whatever the kind. *)
Theorem C8_geometrical_flags_read_nnc :
  faces G_plain = faces G_nnc
  /\ getNeighborship G_plain "Geometrical" false 2
     = Ok (RetPair (arr 2 [[0; 1]; [1; 2]])
                   {| shape1 := 1; rows := [[false]; [false]] |})
  /\ getNeighborship G_nnc "Geometrical" false 2 = Raise TypeError.
Proof. repeat split. Qed.

(** ** C9 *)

(** C9, as stated, fails: not every call with [nargout <= 1] returns [N]
    alone; a Topological call on a grid with a three-column [nnc.cells]
    raises the assertion error of line 112 instead. *)
Lemma C9_call_may_raise_instead :
  ~ (exists N, getNeighborship G_nnc_3col "Topological" false 1
               = Ok (RetN N)).
Proof. intros [N H]. vm_compute in H. discriminate. Qed.

(** C9 (amended): the arity of the result is decided by the test
    [nargout >= 2] alone and [nargout] is never validated.  A call with
    [nargout >= 2] has the outcome of the call with [nargout = 2]; when it
    returns it returns the pair [(N, isnnc)], and it does return it on
    every grid without [nnc.cells].  A call with [nargout <= 1] (zero and
    negative values included) has the outcome of the call with
    [nargout = 1]; when it returns it returns [N] alone, and it does return
    it unless the Topological block fails: whenever the kind is not
    Topological, or the grid has no [nnc.cells], or [nnc.cells] and
    [faces.neighbors] both have two columns. *)
Theorem C9_arity_by_threshold (G : Grid) (kind : string) (incBdry : bool)
    (nargout : Z) :
  (2 <= nargout ->
   getNeighborship G kind incBdry nargout = getNeighborship G kind incBdry 2
   /\ (forall r, getNeighborship G kind incBdry nargout = Ok r ->
                 exists N isnnc, r = RetPair N isnnc)
   /\ (G_nnc_cells G = Raise AttributeError ->
       exists N isnnc,
         getNeighborship G kind incBdry nargout = Ok (RetPair N isnnc)))
  /\ (nargout <= 1 ->
      getNeighborship G kind incBdry nargout
      = getNeighborship G kind incBdry 1
      /\ (forall r, getNeighborship G kind incBdry nargout = Ok r ->
                    exists N, r = RetN N)
      /\ (kind <> "Topological"%string
          \/ G_nnc_cells G = Raise AttributeError
          \/ (exists c, G_nnc_cells G = Ok c
                        /\ shape1 c = 2%nat
                        /\ shape1 (neighbors (faces G)) = 2%nat) ->
          exists N, getNeighborship G kind incBdry nargout = Ok (RetN N))).
Proof.
  split.
  - intros Hn. split; [|split].
    + apply getNeighborship_nargout_threshold.
      apply Z.leb_le in Hn. now rewrite Hn.
    + intros r Hr.
      destruct (getNeighborship_arity _ _ _ _ _ Hr) as [[_ Hp] | [Hn' _]];
        [assumption | lia].
    + intros E.
      destruct (getNeighborship_returns G kind incBdry nargout) as [r Hr];
        [now left|].
      destruct (getNeighborship_arity _ _ _ _ _ Hr)
        as [[_ (N & isnnc & ->)] | [Hn' _]]; [eauto | lia].
  - intros Hn. split; [|split].
    + apply getNeighborship_nargout_threshold.
      assert (E : (2 <=? nargout) = false) by (apply Z.leb_gt; lia).
      now rewrite E.
    + intros r Hr.
      destruct (getNeighborship_arity _ _ _ _ _ Hr) as [[Hn' _] | [_ Hp]];
        [lia | assumption].
    + intros H.
      destruct (getNeighborship_returns G kind incBdry nargout) as [r Hr].
      { destruct H as [Hk | [E | Hc]]; [right | now left | right]; auto. }
      destruct (getNeighborship_arity _ _ _ _ _ Hr)
        as [[Hn' _] | [_ (N & ->)]]; [lia | eauto].
Qed.

Lemma C9_arity_by_threshold_witness :
  (exists N isnnc,
      getNeighborship G_plain "Geometrical" false 7 = Ok (RetPair N isnnc))
  /\ getNeighborship G_plain "Geometrical" false 7
     = getNeighborship G_plain "Geometrical" false 2
  /\ (exists N, getNeighborship G_nnc "Geometrical" false (-3) = Ok (RetN N))
  /\ (exists N, getNeighborship G_nnc "Topological" false 0 = Ok (RetN N))
  /\ getNeighborship G_nnc "Topological" false 0
     = getNeighborship G_nnc "Topological" false 1.
Proof.
  assert (H7 : 2 <= 7) by lia.
  assert (H3 : -3 <= 1) by lia.
  assert (H0 : 0 <= 1) by lia.
  destruct (C9_arity_by_threshold G_plain "Geometrical" false 7)
    as [Hpair _].
  destruct (C9_arity_by_threshold G_nnc "Geometrical" false (-3))
    as [_ Hgeo].
  destruct (C9_arity_by_threshold G_nnc "Topological" false 0)
    as [_ Htop].
  destruct (Hpair H7) as (E7 & _ & R7).
  destruct (Hgeo H3) as (_ & _ & R3).
  destruct (Htop H0) as (E0 & _ & R0).
  repeat apply conj.
  - apply R7. reflexivity.
  - exact E7.
  - apply R3. left. discriminate.
  - apply R0. right; right. exists (arr 2 [[3; 5]]). repeat split.
  - exact E0.
Defined.

(** ** C10 *)

(** C10 (fails on the code): a call with a kind other than ["Topological"]
    should raise no error.  With kind ["topological"], flags requested and
    a grid that has [nnc.cells], the call raises [TypeError] at line 117,
    as the Geometrical call on the same arguments does. *)
Theorem C10_other_kind_flags_raise :
  getNeighborship G_nnc "topological" true 2 = Raise TypeError
  /\ getNeighborship G_nnc "Geometrical" true 2 = Raise TypeError.
Proof. split; reflexivity. Qed.

(** * Further properties *)

(** X1.  Topological mode, [N] alone requested, a well-shaped grid whose
    [nnc.cells] has K rows and two columns: the call returns an [N] of
    M + K rows, the M rows of the geometric block in the order of
    [faces.neighbors], then the K rows of [nnc.cells] in their order. *)
Theorem topological_N_geometric_then_nnc (G : Grid) (c : ndarray Z)
    (incBdry : bool) (nargout : Z) :
  G_nnc_cells G = Ok c ->
  shape1 c = 2%nat ->
  shape1 (neighbors (faces G)) = 2%nat ->
  nargout <= 1 ->
  let geom :=
    if incBdry
    then rows (neighbors (faces G))
    else filter (forallb (fun x => negb (x =? -1)))
           (rows (neighbors (faces G))) in
  exists N,
    getNeighborship G "Topological" incBdry nargout = Ok (RetN N)
    /\ shape0 N = (length geom + shape0 c)%nat
    /\ firstn (length geom) (rows N) = geom
    /\ skipn (length geom) (rows N) = rows c.
Proof.
  intros Ec Hc HN Hn geom.
  eexists. split.
  - apply (getNeighborship_topological_N G incBdry nargout c);
      [assumption .. | lia].
  - unfold shape0; cbn [rows geometric]. fold geom.
    rewrite length_app, firstn_app, skipn_app, Nat.sub_diag.
    rewrite firstn_all, skipn_all; simpl.
    now rewrite app_nil_r.
Qed.

Lemma topological_N_geometric_then_nnc_witness :
  exists N,
    getNeighborship G_nnc "Topological" false 1 = Ok (RetN N)
    /\ shape0 N = 3%nat
    /\ firstn 2 (rows N) = [[0; 1]; [1; 2]]
    /\ skipn 2 (rows N) = [[3; 5]].
Proof.
  apply (topological_N_geometric_then_nnc G_nnc (arr 2 [[3; 5]]) false 1);
    [reflexivity | reflexivity | reflexivity | lia].
Defined.

(** X2.  A kind other than ["Topological"] is not validated and is treated as
    ["Geometrical"]: same value returned, or same exception raised. *)
Theorem other_kind_as_geometrical (G : Grid) (kind : string)
    (incBdry : bool) (nargout : Z) :
  kind <> "Topological"%string ->
  getNeighborship G kind incBdry nargout
  = getNeighborship G "Geometrical" incBdry nargout.
Proof.
  intros Hk. rewrite !getNeighborship_blocks.
  apply String.eqb_neq in Hk. now rewrite Hk.
Qed.

Lemma other_kind_as_geometrical_witness :
  getNeighborship G_nnc "topological" false 1
  = getNeighborship G_nnc "Geometrical" false 1.
Proof.
  apply (other_kind_as_geometrical G_nnc "topological" false 1).
  discriminate.
Defined.

(** X3.  Geometrical mode with [N] alone requested does not depend on [nnc]:
    two grids with the same [faces] give the same outcome. *)
Theorem geometrical_N_ignores_nnc (G1 G2 : Grid) (incBdry : bool)
    (nargout : Z) :
  faces G1 = faces G2 ->
  nargout <= 1 ->
  getNeighborship G1 "Geometrical" incBdry nargout
  = getNeighborship G2 "Geometrical" incBdry nargout.
Proof.
  intros Hf Hn.
  rewrite !getNeighborship_other_kind_N by (discriminate || lia).
  unfold geometric. now rewrite Hf.
Qed.

Lemma geometrical_N_ignores_nnc_witness :
  getNeighborship G_plain "Geometrical" false 1
  = getNeighborship G_nnc_3col "Geometrical" false 1.
Proof.
  apply (geometrical_N_ignores_nnc G_plain G_nnc_3col false 1);
    [reflexivity | lia].
Defined.

(** X4.  Flags requested on a grid that has [nnc.cells]: no call returns.  The
    exception is the [TypeError] of [np.ones] at line 117, unless the
    Topological block fails first. *)
Theorem flags_with_cells_never_return (G : Grid) (c : ndarray Z)
    (kind : string) (incBdry : bool) (nargout : Z) :
  G_nnc_cells G = Ok c ->
  2 <= nargout ->
  (exists e, getNeighborship G kind incBdry nargout = Raise e)
  /\ (kind <> "Topological"%string
      \/ (shape1 c = 2%nat /\ shape1 (neighbors (faces G)) = 2%nat) ->
      getNeighborship G kind incBdry nargout = Raise TypeError).
Proof.
  intros Ec Hn. split.
  - now apply (getNeighborship_cells_flags_raise G kind incBdry nargout c).
  - intros [Hk | [Hc HN]].
    + now apply (getNeighborship_other_kind_flags G kind incBdry nargout c).
    + destruct (String.eqb_spec kind "Topological") as [-> | Hk].
      * now apply (getNeighborship_topological_flags G incBdry nargout c).
      * now apply (getNeighborship_other_kind_flags G kind incBdry nargout c).
Qed.

Lemma flags_with_cells_never_return_witness :
  (exists e, getNeighborship G_nnc "Topological" false 2 = Raise e)
  /\ getNeighborship G_nnc "Topological" false 2 = Raise TypeError.
Proof.
  assert (Hn : 2 <= 2) by lia.
  destruct (flags_with_cells_never_return G_nnc (arr 2 [[3; 5]])
              "Topological" false 2 eq_refl Hn) as [H1 H2].
  split; [exact H1 | apply H2; right; split; reflexivity].
Defined.

(** X5.  When a call returns: exactly when [G] has no [nnc.cells], or [N]
    alone is requested and the Topological block, if it runs, finds
    two-column [nnc.cells] and [faces.neighbors]. *)
Theorem getNeighborship_returns_iff (G : Grid) (kind : string)
    (incBdry : bool) (nargout : Z) :
  (exists r, getNeighborship G kind incBdry nargout = Ok r)
  <-> (G_nnc_cells G = Raise AttributeError
       \/ (nargout <= 1
           /\ (kind <> "Topological"%string
               \/ exists c, G_nnc_cells G = Ok c
                            /\ shape1 c = 2%nat
                            /\ shape1 (neighbors (faces G)) = 2%nat))).
Proof.
  rewrite getNeighborship_closed_form.
  destruct (G_nnc_cells_cases G) as [E | [c E]]; rewrite E.
  - split; [now left | eauto].
  - destruct (String.eqb_spec kind "Topological") as [-> | Hk];
      [destruct (Nat.eqb_spec (shape1 c) 2) as [Hc | Hc];
       [destruct (Nat.eqb_spec (shape1 (neighbors (faces G))) 2)
          as [HN | HN]|]|];
      try destruct (Z.leb_spec 2 nargout) as [Hn | Hn];
      (split;
       [ intros [r Hr]; try discriminate; right;
         (split; [lia|]); (now left) || (right; eauto)
       | intros [H | [Hn' [Hk' | (c' & Ec' & Hc' & HN')]]];
         try discriminate; try lia; try congruence; eauto ]).
Qed.

(** X6.  The exceptions a call can raise, and when: only on a grid that has
    [nnc.cells], and only [AssertionError] (Topological, [nnc.cells] not of
    two columns), [ValueError] (Topological, two-column [nnc.cells] stacked
    under a [faces.neighbors] of another width) or [TypeError] (flags
    requested, the Topological block passed or not run).  No
    [AttributeError], [IndexError] or [UnboundLocalError] escapes. *)
Theorem getNeighborship_raises_only (G : Grid) (kind : string)
    (incBdry : bool) (nargout : Z) (e : exn) :
  getNeighborship G kind incBdry nargout = Raise e ->
  exists c,
    G_nnc_cells G = Ok c
    /\ ((e = AssertionError
         /\ kind = "Topological"%string /\ shape1 c <> 2%nat)
        \/ (e = ValueError
            /\ kind = "Topological"%string /\ shape1 c = 2%nat
            /\ shape1 (neighbors (faces G)) <> 2%nat)
        \/ (e = TypeError
            /\ 2 <= nargout
            /\ (kind <> "Topological"%string
                \/ (shape1 c = 2%nat
                    /\ shape1 (neighbors (faces G)) = 2%nat)))).
Proof.
  rewrite getNeighborship_closed_form.
  destruct (G_nnc_cells_cases G) as [E | [c E]]; rewrite E; [discriminate|].
  intros H. exists c. split; [reflexivity|].
  destruct (String.eqb_spec kind "Topological") as [-> | Hk].
  - destruct (Nat.eqb_spec (shape1 c) 2) as [Hc | Hc].
    + destruct (Nat.eqb_spec (shape1 (neighbors (faces G))) 2) as [HN | HN].
      * destruct (Z.leb_spec 2 nargout) as [Hn | Hn]; [|discriminate].
        injection H as <-. right; right. auto.
      * injection H as <-. right; left. auto.
    + injection H as <-. left. auto.
  - destruct (Z.leb_spec 2 nargout) as [Hn | Hn]; [|discriminate].
    injection H as <-. right; right. auto.
Qed.

Lemma getNeighborship_raises_only_witness :
  exists c, G_nnc_cells G_nnc_3col = Ok c /\ shape1 c <> 2%nat.
Proof.
  destruct (getNeighborship_raises_only G_nnc_3col "Topological" false 1
              AssertionError eq_refl)
    as (c & Ec & [(_ & _ & Hc) | [(He & _) | (He & _)]]);
    [eauto | discriminate | discriminate].
Defined.

(** X7.  On a grid without [nnc.cells] the kind plays no part: every two
    kinds, ["Geometrical"] and ["Topological"] among them, give the same
    value. *)
Theorem kind_irrelevant_without_cells (G : Grid) (kind kind' : string)
    (incBdry : bool) (nargout : Z) :
  nnc G = None \/ (exists s, nnc G = Some s /\ cells s = None) ->
  getNeighborship G kind incBdry nargout
  = getNeighborship G kind' incBdry nargout.
Proof.
  intros H. apply G_nnc_cells_absent in H.
  now rewrite !getNeighborship_no_cells.
Qed.

Lemma kind_irrelevant_without_cells_witness :
  getNeighborship G_nnc_no_cells "Topological" false 2
  = getNeighborship G_nnc_no_cells "Geometrical" false 2.
Proof.
  apply (kind_irrelevant_without_cells G_nnc_no_cells).
  right. exists {| cells := None |}. split; reflexivity.
Defined.

(** X8.  On a grid none of whose [faces.neighbors] rows holds the sentinel
    [-1], [incBdry] plays no part: both settings give the same outcome. *)
Theorem incBdry_irrelevant_without_boundary (G : Grid) (kind : string)
    (nargout : Z) :
  (forall r, In r (rows (neighbors (faces G))) -> ~ In (-1) r) ->
  getNeighborship G kind true nargout
  = getNeighborship G kind false nargout.
Proof.
  intros H.
  assert (E : geometric G true = geometric G false).
  { unfold geometric. f_equal. symmetry. apply filter_id.
    intros r Hr. apply no_sentinel_spec. now apply H. }
  rewrite !getNeighborship_blocks. now rewrite E.
Qed.

Lemma incBdry_irrelevant_without_boundary_witness :
  getNeighborship (grid_of (arr 2 [[0; 1]; [1; 2]])) "Geometrical" true 2
  = getNeighborship (grid_of (arr 2 [[0; 1]; [1; 2]])) "Geometrical" false 2.
Proof.
  apply (incBdry_irrelevant_without_boundary
           (grid_of (arr 2 [[0; 1]; [1; 2]])) "Geometrical" 2).
  simpl. intros r [<- | [<- | []]] Hin; simpl in Hin;
    repeat destruct Hin as [Hin | Hin]; try discriminate; exact Hin.
Defined.

(** X9.  With [incBdry = false], a row of the returned [N] that holds the
    sentinel [-1] can only be a row of [nnc.cells] appended in Topological
    mode: the boundary filter runs before the NNC rows are stacked and is
    not applied to them. *)
Theorem sentinel_rows_come_from_nnc (G : Grid) (kind : string)
    (nargout : Z) (r : retval) (row : list Z) :
  getNeighborship G kind false nargout = Ok r ->
  In row (rows (ret_N r)) ->
  In (-1) row ->
  kind = "Topological"%string
  /\ exists c, G_nnc_cells G = Ok c /\ In row (rows c).
Proof.
  intros H Hrow Hs.
  rewrite (getNeighborship_returned_rows _ _ _ _ _ H) in Hrow.
  apply in_app_or in Hrow as [Hrow | Hrow].
  - simpl in Hrow. apply filter_In in Hrow as [_ Hrow].
    apply no_sentinel_spec in Hrow. contradiction.
  - unfold nnc_rows in Hrow.
    destruct (String.eqb_spec kind "Topological") as [-> | Hk];
      [|contradiction].
    destruct (G_nnc_cells G) as [c | e]; [|contradiction].
    split; [reflexivity | now exists c].
Qed.

Lemma sentinel_rows_come_from_nnc_witness :
  getNeighborship G_nnc_boundary "Topological" false 1
  = Ok (RetN (arr 2 [[0; 1]; [1; 2]; [-1; 4]]))
  /\ exists c, G_nnc_cells G_nnc_boundary = Ok c /\ In [-1; 4] (rows c).
Proof.
  split; [reflexivity|].
  apply (sentinel_rows_come_from_nnc G_nnc_boundary "Topological" 1
           (RetN (arr 2 [[0; 1]; [1; 2]; [-1; 4]])) [-1; 4]).
  - reflexivity.
  - simpl. right; right; left. reflexivity.
  - simpl. left. reflexivity.
Defined.

Lemma Forall_filter {A : Type} (P : A -> Prop) (p : A -> bool)
    (l : list A) :
  Forall P l -> Forall P (filter p l).
Proof.
  rewrite !Forall_forall. intros H x Hx.
  apply filter_In in Hx as [Hx _]. now apply H.
Qed.

Lemma geometric_rectangular (G : Grid) (incBdry : bool) :
  rectangular (neighbors (faces G)) -> rectangular (geometric G incBdry).
Proof.
  unfold rectangular, geometric; simpl. intros H.
  destruct incBdry; [assumption | now apply Forall_filter].
Qed.

(** X10.  The shape of a returned [N]: it has the column count of
    [faces.neighbors], and it is rectangular whenever [faces.neighbors] and
    [nnc.cells] are. *)
Theorem returned_N_shape (G : Grid) (kind : string) (incBdry : bool)
    (nargout : Z) (r : retval) :
  getNeighborship G kind incBdry nargout = Ok r ->
  shape1 (ret_N r) = shape1 (neighbors (faces G))
  /\ (rectangular (neighbors (faces G)) ->
      (forall c, G_nnc_cells G = Ok c -> rectangular c) ->
      rectangular (ret_N r)).
Proof.
  rewrite getNeighborship_closed_form. unfold ret_geometric.
  destruct (G_nnc_cells G) as [c | e].
  - destruct (String.eqb kind "Topological").
    + destruct (Nat.eqb_spec (shape1 c) 2) as [Hc | Hc]; [|discriminate].
      destruct (Nat.eqb_spec (shape1 (neighbors (faces G))) 2) as [HN | HN];
        [|discriminate].
      destruct (2 <=? nargout); [discriminate|].
      intros H; injection H as <-. simpl. split; [now rewrite HN|].
      intros HG Hcells. unfold rectangular; simpl.
      apply Forall_app. split.
      * pose proof (geometric_rectangular G incBdry HG) as Hg.
        unfold rectangular in Hg. simpl in Hg. now rewrite HN in Hg.
      * pose proof (Hcells c eq_refl) as Hr.
        unfold rectangular in Hr. now rewrite Hc in Hr.
    + destruct (2 <=? nargout); [discriminate|].
      intros H; injection H as <-. simpl. split; [reflexivity|].
      intros HG _. now apply geometric_rectangular.
  - intros H; injection H as <-.
    destruct (2 <=? nargout); simpl; (split; [reflexivity|]);
      intros HG _; now apply geometric_rectangular.
Qed.

Lemma returned_N_shape_witness :
  shape1 (arr 2 [[0; 1]; [1; 2]; [3; 5]]) = 2%nat
  /\ (rectangular (neighbors (faces G_nnc)) ->
      (forall c, G_nnc_cells G_nnc = Ok c -> rectangular c) ->
      rectangular (arr 2 [[0; 1]; [1; 2]; [3; 5]])).
Proof.
  apply (returned_N_shape G_nnc "Topological" false 1
           (RetN (arr 2 [[0; 1]; [1; 2]; [3; 5]]))).
  reflexivity.
Defined.

(** X11.  Whenever a call returns the pair [(N, isnnc)], the grid has no
    [nnc.cells] and [isnnc] is the column of [N.shape[0]] entries [False]:
    no call returns a [True] flag. *)
Theorem returned_flags_all_false (G : Grid) (kind : string)
    (incBdry : bool) (nargout : Z) (N : ndarray Z) (isnnc : ndarray bool) :
  getNeighborship G kind incBdry nargout = Ok (RetPair N isnnc) ->
  G_nnc_cells G = Raise AttributeError
  /\ shape1 isnnc = 1%nat
  /\ rows isnnc = repeat [false] (shape0 N).
Proof.
  rewrite getNeighborship_closed_form. unfold ret_geometric.
  destruct (G_nnc_cells_cases G) as [E | [c E]]; rewrite E.
  - destruct (2 <=? nargout); [|discriminate].
    intros H; injection H as <- <-. now repeat split.
  - repeat match goal with
           | |- context [if ?b then _ else _] => destruct b
           end; discriminate.
Qed.

Lemma returned_flags_all_false_witness :
  G_nnc_cells G_plain = Raise AttributeError
  /\ shape1 {| shape1 := 1; rows := [[false]; [false]; [false]] |} = 1%nat
  /\ rows {| shape1 := 1; rows := [[false]; [false]; [false]] |}
     = repeat [false] (shape0 (arr 2 [[0; 1]; [1; 2]; [-1; 0]])).
Proof.
  apply (returned_flags_all_false G_plain "Topological" true 2).
  reflexivity.
Defined.

(** X12.  [incBdry] never decides whether a call raises, nor what: the two
    settings raise the same exception or both return; and when they return,
    every row of the [incBdry = false] answer is a row of the
    [incBdry = true] answer, which has at least as many rows. *)
Theorem incBdry_sub_relation (G : Grid) (kind : string) (nargout : Z) :
  (forall e,
      getNeighborship G kind true nargout = Raise e
      <-> getNeighborship G kind false nargout = Raise e)
  /\ (forall rt rf,
         getNeighborship G kind true nargout = Ok rt ->
         getNeighborship G kind false nargout = Ok rf ->
         incl (rows (ret_N rf)) (rows (ret_N rt))
         /\ (shape0 (ret_N rf) <= shape0 (ret_N rt))%nat).
Proof.
  split.
  - intros e. rewrite !getNeighborship_closed_form. unfold ret_geometric.
    destruct (G_nnc_cells G) as [c | e'].
    + repeat match goal with
             | |- context [if ?b then _ else _] => destruct b
             end; split; intros H; (discriminate || exact H).
    + split; discriminate.
  - intros rt rf Ht Hf. unfold shape0.
    rewrite (getNeighborship_returned_rows _ _ _ _ _ Ht).
    rewrite (getNeighborship_returned_rows _ _ _ _ _ Hf).
    simpl. split.
    + intros row Hrow. apply in_or_app.
      apply in_app_or in Hrow as [Hrow | Hrow]; [left | now right].
      now apply filter_In in Hrow as [Hrow _].
    + rewrite !length_app.
      apply Nat.add_le_mono_r, filter_length_le.
Qed.

Lemma incBdry_sub_relation_witness :
  incl [[0; 1]; [1; 2]; [3; 5]] [[0; 1]; [1; 2]; [-1; 0]; [3; 5]]
  /\ (3 <= 4)%nat.
Proof.
  apply (proj2 (incBdry_sub_relation G_nnc "Topological" 1)
           (RetN (arr 2 [[0; 1]; [1; 2]; [-1; 0]; [3; 5]]))
           (RetN (arr 2 [[0; 1]; [1; 2]; [3; 5]])));
    reflexivity.
Defined.

(** X13.  The interior relation is a fixed point: when a call with
    [incBdry = false] that appends no NNC row returns [N], a grid built on
    [N] gives [N] back for every kind, [incBdry] and [nargout]. *)
Theorem interior_relation_fixed_point (G : Grid) (kind : string)
    (nargout : Z) (r : retval) :
  getNeighborship G kind false nargout = Ok r ->
  kind <> "Topological"%string \/ G_nnc_cells G = Raise AttributeError ->
  forall (kind' : string) (incBdry' : bool) (nargout' : Z),
  exists r',
    getNeighborship (grid_of (ret_N r)) kind' incBdry' nargout' = Ok r'
    /\ ret_N r' = ret_N r.
Proof.
  intros H Hk kind' incBdry' nargout'.
  assert (E : ret_N r = geometric G false).
  { revert H. rewrite getNeighborship_closed_form. unfold ret_geometric.
    destruct Hk as [Hk | Hk].
    - apply String.eqb_neq in Hk. rewrite Hk.
      destruct (G_nnc_cells G) as [c | e];
        destruct (2 <=? nargout); try discriminate;
        intros H; now injection H as <-.
    - rewrite Hk. destruct (2 <=? nargout);
        intros H; now injection H as <-. }
  rewrite E.
  exists (ret_geometric (grid_of (geometric G false)) incBdry' nargout').
  split.
  - now apply getNeighborship_no_cells.
  - unfold ret_geometric.
    assert (Eg : geometric (grid_of (geometric G false)) incBdry'
                 = geometric G false).
    { unfold geometric at 1; simpl.
      destruct incBdry'; [reflexivity|].
      unfold geometric. now rewrite filter_filter. }
    destruct (2 <=? nargout'); simpl; exact Eg.
Qed.

Lemma interior_relation_fixed_point_witness :
  exists r',
    getNeighborship (grid_of (arr 2 [[0; 1]; [1; 2]])) "Topological" false 2
    = Ok r'
    /\ ret_N r' = arr 2 [[0; 1]; [1; 2]].
Proof.
  apply (interior_relation_fixed_point G_nnc "Geometrical" 1
           (RetN (arr 2 [[0; 1]; [1; 2]])));
    [reflexivity | left; discriminate].
Defined.
